(** * flask_oauthlib.provider: the OAuth2 provider glue, embedded in Rocq

    A shallow embedding of [src/flask_oauthlib/provider.py]: the request
    validator [OAuthRequestValidator] (the callbacks oauthlib calls back
    into) and the [OAuth] extension object with its [error_uri] and
    [server] properties and its [authorize_handler] decorator.

    Python objects become records, [None] becomes [None : option _], an
    attribute access on [None] raises [AttributeError], and assignments to
    the oauthlib request object become updates of a [Request] record that
    is threaded through every validator call, also past a raise. *)

From Stdlib Require Import ZArith String.
From stdpp Require Import base decidable option list gmap sets strings.

Local Open Scope string_scope.
Local Open Scope Z_scope.

(** ** Python-level plumbing *)

(** An error raised by oauthlib, with the fields its [in_uri] adds to the
    query of the URI it is given. *)
Record OAuth2Error := mkOAuth2Error {
  error : string;
  description : string;
  state : option string
}.

Inductive Exn :=
| AttributeError (attr : string)
| TypeError (msg : string)
| RuntimeError (msg : string)
| BuildError (endpoint : string)
| FatalClientError (e : OAuth2Error)
| OtherOAuth2Error (e : OAuth2Error).

Inductive Result (A : Type) :=
| Ok (a : A)
| Raise (e : Exn).
Arguments Ok {A} a.
Arguments Raise {A} e.

(** ** The data the getters return *)

(** The user object of a token is opaque to the provider: it is only copied
    from the token to the request. *)
Inductive User := UserObj (uid : string).

Module Client.
(** [confidential] is the optional attribute [authenticate_client_id]
    probes with [hasattr]. *)
Record t := mk {
  client_id : string;
  client_secret : string;
  client_type : string;
  redirect_uris : list string;
  default_redirect_uri : string;
  default_scopes : list string;
  confidential : option string
}.
End Client.

Module Token.
(** [expires] is a [datetime.datetime]; instants are totally ordered and
    are counted here in microseconds. *)
Record t := mk {
  scopes : list string;
  expires : Z;
  user : User
}.
End Token.

Module Grant.
(** Modelled from the spec: the source documents only [delete] on a grant
    object; the fields are those of the AuthorizationGrant record of the
    data model (code, client_id, redirect_uri, scopes, user_id,
    expires_at). *)
Record t := mk {
  code : string;
  client_id : string;
  redirect_uri : string;
  scopes : list string;
  user_id : string;
  expires_at : Z
}.
End Grant.

(** ** The oauthlib request object

    oauthlib creates it with [client], [user] and [scopes] set to [None];
    the validator assigns to them. *)
Module Request.
Record t := mk {
  client : option Client.t;
  user : option User;
  scopes : option (list string)
}.

Definition empty : t := mk None None None.
Definition with_client (c : option Client.t) (r : t) : t :=
  mk c (user r) (scopes r).
Definition with_user (u : option User) (r : t) : t :=
  mk (client r) u (scopes r).
Definition with_scopes (s : option (list string)) (r : t) : t :=
  mk (client r) (user r) s.
End Request.

(** ** Calls with effects: state passing with exceptions

    [St S A] is a call that reads and updates a mutable object of type [S]
    and returns an [A] or raises. A raise keeps the assignments made before
    it, as in Python. *)
Definition St (S A : Type) : Type := S -> Result A * S.

Definition ret {S A} (a : A) : St S A := fun s => (Ok a, s).
Definition raise {S A} (e : Exn) : St S A := fun s => (Raise e, s).
Definition bind {S A B} (m : St S A) (k : A -> St S B) : St S B :=
  fun s => match m s with
           | (Ok a, s') => k a s'
           | (Raise e, s') => (Raise e, s')
           end.
Definition lift {S A} (r : Result A) : St S A := fun s => (r, s).

Notation "'do' x <- m ; k" := (bind m (fun x => k))
  (at level 10, x name, m at level 100, k at level 200, only parsing).

(** [o.attr]: an attribute read, which raises on [None]. *)
Definition getattr {S A B} (o : option A) (field : A -> B) (attr : string) : St S B :=
  match o with
  | Some a => ret (field a)
  | None => raise (AttributeError attr)
  end.

(** [a or b] on objects that are truthy unless they are [None]. *)
Definition por {A} (a b : option A) : option A :=
  match a with
  | Some _ => a
  | None => b
  end.

(** [set(l)] and [a.issuperset(b)]. *)
Definition pyset (l : list string) : gset string := list_to_set l.
Definition issuperset (a b : gset string) : bool := bool_decide (b ⊆ a).

(** ** class OAuthRequestValidator *)
Module OAuthRequestValidator.

(** [_tokengetter] takes the keyword arguments [access_token] and
    [refresh_token]; each caller passes one of them. *)
Record t := mk {
  _clientgetter : string -> option Client.t;
  _tokengetter : option string -> option string -> option Token.t;
  _grantgetter : string -> string -> option Grant.t
}.

(** Validator methods run over the oauthlib request object. *)
Definition M (A : Type) : Type := St Request.t A.

Definition get_client : M (option Client.t) :=
  fun r => (Ok (Request.client r), r).
Definition set_client (c : option Client.t) : M unit :=
  fun r => (Ok tt, Request.with_client c r).
Definition set_user (u : User) : M unit :=
  fun r => (Ok tt, Request.with_user (Some u) r).
Definition set_scopes (s : list string) : M unit :=
  fun r => (Ok tt, Request.with_scopes (Some s) r).

(** The value [authenticate_client_id] compares [client_type] with: the
    string 'confidential', unless the client object has an attribute
    [confidential] of its own. *)
Definition confidential_marker (client : Client.t) : string :=
  match Client.confidential client with
  | Some marker => marker
  | None => "confidential"
  end.

Section Methods.
Variable self : t.

Definition authenticate_client_id (client_id : string) : M bool :=
  do rc <- get_client;
  let client := por rc (_clientgetter self client_id) in
  match client with
  | None => ret false
  | Some c =>
      do _ <- set_client (Some c);
      let confidential := confidential_marker c in
      ret (negb (String.eqb (Client.client_type c) confidential))
  end.

Definition confirm_scopes (refresh_token : string) (scopes : list string) : M bool :=
  let tok := _tokengetter self None (Some refresh_token) in
  do tok_scopes <- getattr tok Token.scopes "scopes";
  ret (bool_decide (pyset tok_scopes = pyset scopes)).

Definition get_default_redirect_uri (client_id : string) : M string :=
  do rc <- get_client;
  let client := por rc (_clientgetter self client_id) in
  getattr client Client.default_redirect_uri "default_redirect_uri".

Definition get_default_scopes (client_id : string) : M (list string) :=
  do rc <- get_client;
  let client := por rc (_clientgetter self client_id) in
  getattr client Client.default_scopes "default_scopes".

(** [now] is the value of [datetime.datetime.utcnow()] at the call. *)
Definition validate_bearer_token (now : Z) (token : string) (scopes : list string) : M bool :=
  let tok := _tokengetter self (Some token) None in
  match tok with
  | None => ret false
  | Some tok =>
      if now >? Token.expires tok then ret false
      else if negb (issuperset (pyset (Token.scopes tok)) (pyset scopes)) then ret false
      else
        do _ <- set_user (Token.user tok);
        do _ <- set_scopes scopes;
        ret true
  end.

Definition validate_client_id (client_id : string) : M bool :=
  do rc <- get_client;
  let client := por rc (_clientgetter self client_id) in
  match client with
  | Some c => do _ <- set_client (Some c); ret true
  | None => ret false
  end.

(** [request.client = request.client = self._clientgetter(client_id)]:
    the right-hand side is evaluated once and assigned twice. *)
Definition validate_redirect_uri (client_id redirect_uri : string) : M bool :=
  let c := _clientgetter self client_id in
  do _ <- set_client c;
  do _ <- set_client c;
  do rc <- get_client;
  do uris <- getattr rc Client.redirect_uris "redirect_uris";
  ret (bool_decide (redirect_uri ∈ uris)).
End Methods.

(** The body is [pass]: the call returns [None]. *)
Definition validate_code (self : t) (client_id code : string)
    (client : option Client.t) : M (option bool) :=
  ret None.
End OAuthRequestValidator.

(** ** The Flask side *)

(** The application: only its [config] dictionary is read. *)
Record Flask := mkFlask { config : gmap string string }.

(** [flask.request], as far as [_extract_params] and the handlers read it. *)
Module FlaskRequest.
Record t := mk {
  url : string;
  method : string;
  headers : gmap string string;
  form : list (string * string);
  args : gmap string string
}.
End FlaskRequest.

(** What a view returns: [redirect(location)] or a page of its own. *)
Inductive Response :=
| redirect (location : string)
| page (status : Z) (body : string).

(** Keyword arguments of a view: [scopes] is a list, the credentials that
    oauthlib resolved are strings. *)
Inductive KwVal :=
| KwStr (s : string)
| KwList (l : list string).

Definition View : Type := list string -> gmap string KwVal -> Result Response.

(** oauthlib's [Server(validator)]. *)
Record Server := mkServer { request_validator : OAuthRequestValidator.t }.

(** Truthiness of [config.get(key)]: [None] and the empty string are falsy. *)
Definition if_truthy {A} (v : option string) (yes : string -> A) (no : A) : A :=
  match v with
  | Some s => if String.eqb s "" then no else yes s
  | None => no
  end.

(** werkzeug's [cached_property]: the first successful result of [body] is
    stored on the instance and returned from then on. *)
Definition cached_property {S A} (slot : S -> option A) (store : A -> S -> S)
    (body : St S A) : St S A :=
  fun self =>
    match slot self with
    | Some v => (Ok v, self)
    | None =>
        match body self with
        | (Ok v, self') => (Ok v, store v self')
        | (Raise e, self') => (Raise e, self')
        end
    end.

(** ** class OAuth *)
Module OAuth.

(** The instance attributes. [app] is [None] until [init_app] assigns it
    (reading it then raises [AttributeError]) and [Some None] when it was
    assigned [None]; a getter is [None] until its registration method is
    called ([hasattr] is false); the two caches are the slots of the
    cached properties. *)
Record t := mk {
  app : option (option Flask);
  _clientgetter : option (string -> option Client.t);
  _tokengetter : option (option string -> option string -> option Token.t);
  _grantgetter : option (string -> string -> option Grant.t);
  error_uri_cache : option string;
  server_cache : option Server
}.

Definition with_app (a : option (option Flask)) (o : t) : t :=
  mk a (_clientgetter o) (_tokengetter o) (_grantgetter o)
     (error_uri_cache o) (server_cache o).
Definition with_error_uri (u : string) (o : t) : t :=
  mk (app o) (_clientgetter o) (_tokengetter o) (_grantgetter o)
     (Some u) (server_cache o).
Definition with_server (s : Server) (o : t) : t :=
  mk (app o) (_clientgetter o) (_tokengetter o) (_grantgetter o)
     (error_uri_cache o) (Some s).

Definition M (A : Type) : Type := St t A.

(** [self.app = app]; registering the extension on the application is
    the application's state and raises when [app] is [None]. *)
Definition init_app (a : option Flask) : M unit :=
  fun self =>
    let self := with_app (Some a) self in
    match a with
    | Some _ => (Ok tt, self)
    | None => (Raise (AttributeError "extensions"), self)
    end.

(** [OAuth(app)]. *)
Definition new (a : option Flask) : Result unit * t :=
  let self := mk None None None None None None in
  match a with
  | Some _ => init_app a self
  | None => (Ok tt, self)
  end.

Definition clientgetter (f : string -> option Client.t) (self : t) : t :=
  mk (app self) (Some f) (_tokengetter self) (_grantgetter self)
     (error_uri_cache self) (server_cache self).
Definition tokengetter (f : option string -> option string -> option Token.t)
    (self : t) : t :=
  mk (app self) (_clientgetter self) (Some f) (_grantgetter self)
     (error_uri_cache self) (server_cache self).
Definition grantgetter (f : string -> string -> option Grant.t) (self : t) : t :=
  mk (app self) (_clientgetter self) (_tokengetter self) (Some f)
     (error_uri_cache self) (server_cache self).

(** The body is [pass]: calling [require_oauth(scope)] returns [None],
    which is then applied to the view as a decorator. *)
Definition require_oauth (self : t) (scope : option (list string)) : option (View -> View) :=
  None.

(** [@d] over [def f]: the call [d(f)]. *)
Definition decorate (d : option (View -> View)) (f : View) : Result View :=
  match d with
  | Some g => Ok (g f)
  | None => Raise (TypeError "'NoneType' object is not callable")
  end.

Section Environment.
(** What the module imports and does not define: the application
    context stack of Flask, [flask.url_for], and from oauthlib
    [urlencoded], [OAuth2Error.in_uri] and
    [Server.validate_authorization_request]. *)
Variable ctx_top : option Flask.
Variable url_for : string -> Result string.
Variable urlencoded : list (string * string) -> string.
Variable in_uri : OAuth2Error -> string -> string.
Variable validate_authorization_request :
  Server -> string -> string -> string -> gmap string string ->
  Result (list string * gmap string string).

Definition get_app : M Flask :=
  do a <- (fun self => (match app self with
                        | Some a => Ok a
                        | None => Raise (AttributeError "app")
                        end, self));
  match a with
  | Some a => ret a
  | None =>
      match ctx_top with
      | Some a => ret a
      | None =>
          raise (RuntimeError
            ("application not registered on Oauth " ++
             "instance and no application bound to current context"))
      end
  end.

Definition error_uri_body : M string :=
  do app <- get_app;
  let error_uri := config app !! "OAUTH_PROVIDER_ERROR_URI" in
  if_truthy error_uri (fun u => ret u)
    (let error_endpoint := config app !! "OAUTH_PROVIDER_ERROR_ENDPOINT" in
     if_truthy error_endpoint (fun ep => lift (url_for ep))
       (ret "/errors")).

Definition error_uri : M string :=
  cached_property error_uri_cache with_error_uri error_uri_body.

Definition server_body : M Server :=
  fun self =>
    match _clientgetter self, _tokengetter self, _grantgetter self with
    | Some c, Some t, Some g =>
        (Ok (mkServer (OAuthRequestValidator.mk c t g)), self)
    | _, _, _ =>
        (Raise (RuntimeError "application not bound to required getters"), self)
    end.

Definition server : M Server :=
  cached_property server_cache with_server server_body.

Definition _extract_params (request : FlaskRequest.t)
    : string * string * string * gmap string string :=
  let uri := FlaskRequest.url request in
  let http_method := FlaskRequest.method request in
  let headers := FlaskRequest.headers request in
  let headers := delete "wsgi.input" headers in
  let headers := delete "wsgi.errors" headers in
  let headers :=
    match headers !! "HTTP_AUTHORIZATION" with
    | Some v => <["Authorization" := v]> headers
    | None => headers
    end in
  let body := urlencoded (FlaskRequest.form request) in
  (uri, http_method, body, headers).

(** [decorated] of [authorize_handler(f)]. The [try] block covers the
    validation and the call of the view; only [FatalClientError] is
    caught. The [redirect_uri] read from the query is only logged. *)
Definition authorize_handler (f : View) (request : FlaskRequest.t)
    (args : list string) (kwargs : gmap string KwVal) : M Response :=
  let '(uri, http_method, body, headers) := _extract_params request in
  let redirect_uri := FlaskRequest.args request !! "redirect_uri" in
  do server <- server;
  let attempt :=
    match validate_authorization_request server uri http_method body headers with
    | Ok (scopes, credentials) =>
        let kwargs := <["scopes" := KwList scopes]> kwargs in
        let kwargs := (KwStr <$> credentials) ∪ kwargs in
        f args kwargs
    | Raise e => Raise e
    end in
  match attempt with
  | Ok response => ret response
  | Raise (FatalClientError e) =>
      do u <- error_uri;
      ret (redirect (in_uri e u))
  | Raise e => raise e
  end.

(** What [access_token_handler] builds its answer with: Flask's response
    object with [make_response(body, status)] and the assignment
    [response.headers[k] = v], and oauthlib's
    [Server.create_token_response], whose headers are a dict read in its
    order with [items()]. *)
Variable Resp : Type.
Variable make_response : string -> Z -> Resp.
Variable set_header : string -> string -> Resp -> Resp.
Variable create_token_response :
  Server -> string -> string -> string -> gmap string string ->
  gmap string string ->
  Result (string * list (string * string) * string * Z).

(** The view [access_token_handler] wraps returns the extra credentials,
    a dict or [None]. *)
Definition CredentialsView : Type :=
  list string -> gmap string KwVal -> Result (option (gmap string string)).

(** [decorated] of [access_token_handler(f)]. [f(...) or {}] turns [None]
    (and the empty dict) into the empty dict. The view is called before
    [self.server] is read. *)
Definition access_token_handler (f : CredentialsView) (request : FlaskRequest.t)
    (args : list string) (kwargs : gmap string KwVal) : M Resp :=
  let '(uri, http_method, body, headers) := _extract_params request in
  do credentials <- lift (match f args kwargs with
                          | Ok r => Ok (default ∅ r)
                          | Raise e => Raise e
                          end);
  do server <- server;
  do answer <- lift (create_token_response server uri http_method body headers
                       credentials);
  let '(uri, headers, body, status) := answer in
  let response := make_response body status in
  ret (foldl (λ response kv, set_header (fst kv) (snd kv) response) response headers).
End Environment.

(** The body is [pass]: [refresh_token_handler(func)] returns [None]. *)
Definition refresh_token_handler (self : t) (func : View) : option View :=
  None.
End OAuth.

(** * Vocabulary of the statements *)

(** The three ways a bearer token is refused, on the result of the token
    lookup. *)
Definition bearer_refused (lookup : option Token.t) (now : Z)
    (scopes : list string) : Prop :=
  lookup = None ∨
  ∃ tok, lookup = Some tok ∧
    (now > Token.expires tok ∨ ¬ (∀ s, s ∈ scopes → s ∈ Token.scopes tok)).

(** The request after a successful bearer validation. *)
Definition bound_request (tok : Token.t) (scopes : list string)
    (request : Request.t) : Request.t :=
  Request.mk (Request.client request) (Some (Token.user tok)) (Some scopes).

(** A client that [authenticate_client_id] accepts. *)
Definition non_confidential (c : Client.t) : Prop :=
  Client.client_type c ≠ OAuthRequestValidator.confidential_marker c.

(** What [authenticate_client_id] is said to return when read on the
    client lookup alone: true exactly when the lookup finds a client that
    is not confidential. *)
Definition accepts_by_lookup (self : OAuthRequestValidator.t)
    (client_id : string) (request : Request.t) : Prop :=
  fst (OAuthRequestValidator.authenticate_client_id self client_id request) = Ok true ↔
  ∃ c, OAuthRequestValidator._clientgetter self client_id = Some c ∧
       non_confidential c.

(** The memoised [error_uri], when there is one, is the value the body
    computes from the application the instance is bound to. *)
Definition error_uri_cache_coherent (ctx_top : option Flask)
    (url_for : string -> Result string) (self : OAuth.t) : Prop :=
  ∀ v, OAuth.error_uri_cache self = Some v →
       fst (OAuth.error_uri_body ctx_top url_for self) = Ok v.

(** * Sample stores

    A small application: one public and one confidential client, one token
    pair, one grant. *)
Module Sample.
Definition alice : User := UserObj "alice".
Definition bob : User := UserObj "bob".

Definition web_app : Client.t :=
  Client.mk "C1" "" "public" ["https://app/cb"] "https://app/cb" ["email"] None.
Definition backend : Client.t :=
  Client.mk "C2" "s3cret" "confidential" ["https://backend/cb"]
    "https://backend/cb" ["email"; "profile"] None.

Definition tok_abc : Token.t := Token.mk ["a"; "b"; "c"] 1000 alice.
Definition tok_a : Token.t := Token.mk ["a"] 1000 alice.

Definition grant_xyz : Grant.t :=
  Grant.mk "XYZ" "C1" "https://app/cb" ["email"] "alice" 600.

Definition clients (client_id : string) : option Client.t :=
  if String.eqb client_id "C1" then Some web_app
  else if String.eqb client_id "C2" then Some backend
  else None.

Definition tokens (access_token refresh_token : option string) : option Token.t :=
  match access_token, refresh_token with
  | Some t, _ => if String.eqb t "at-abc" then Some tok_abc else None
  | None, Some t => if String.eqb t "rt-a" then Some tok_a else None
  | None, None => None
  end.

Definition grants (client_id code : string) : option Grant.t :=
  if String.eqb client_id "C1" && String.eqb code "XYZ" then Some grant_xyz
  else None.

Definition validator : OAuthRequestValidator.t :=
  OAuthRequestValidator.mk clients tokens grants.

(** A request on which an earlier check has bound a client, a user and
    scopes. *)
Definition busy_request : Request.t :=
  Request.mk (Some web_app) (Some bob) (Some ["x"]).

(** Three configurations: nothing set, both settings set, and the URI
    setting present but empty. *)
Definition app_default : Flask := mkFlask ∅.
Definition app_configured : Flask :=
  mkFlask (<["OAUTH_PROVIDER_ERROR_URI" := "/oauth/errors"]>
            (<["OAUTH_PROVIDER_ERROR_ENDPOINT" := "oauth_error"]> ∅)).

(** An extension object bound to an application, with the three getters
    registered and nothing memoised. *)
Definition oauth (a : Flask) : OAuth.t :=
  OAuth.mk (Some (Some a)) (Some clients) (Some tokens) (Some grants) None None.

(** Stand-ins for Flask and oauthlib: routes are named after their
    endpoint, the error is added as a query, and the engine refuses every
    authorization request for a mismatching redirect URI. *)
Definition url_for (endpoint : string) : Result string :=
  Ok ("/" ++ endpoint).
Definition urlencoded (form : list (string * string)) : string :=
  String.concat "&" (map (λ kv, fst kv ++ "=" ++ snd kv) form).
Definition in_uri (e : OAuth2Error) (uri : string) : string :=
  uri ++ "?error=" ++ error e.


(** A protected view. *)
Definition user_view : View := λ _ _, Ok (page 200 "alice").

(** An engine that accepts every authorization request for client C1, and
    one that refuses with an error that is not fatal. *)
Definition accepting_engine (server : Server) (uri http_method body : string)
    (headers : gmap string string) : Result (list string * gmap string string) :=
  Ok (["email"],
      <["client_id" := "C1"]> (<["redirect_uri" := "https://app/cb"]>
        (<["response_type" := "code"]> ∅))).
Definition invalid_scope : OAuth2Error :=
  mkOAuth2Error "invalid_scope" "Unknown scope." (Some "xyz").
Definition scope_refusing_engine (server : Server) (uri http_method body : string)
    (headers : gmap string string) : Result (list string * gmap string string) :=
  Raise (OtherOAuth2Error invalid_scope).

Definition good_request : FlaskRequest.t :=
  FlaskRequest.mk
    "https://as/oauth/authorize?client_id=C1&redirect_uri=https://app/cb"
    "GET"
    (<["HTTP_AUTHORIZATION" := "Bearer at-abc"]> (<["wsgi.input" := "<stream>"]>
      (<["Host" := "as"]> ∅)))
    [("grant_type", "authorization_code"); ("code", "XYZ")]
    (<["redirect_uri" := "https://app/cb"]> ∅).

(** A consent view that shows the keyword arguments it was called with. *)
Definition consent_view : View :=
  λ _ kwargs,
    match kwargs !! "client_id" with
    | Some (KwStr c) => Ok (page 200 ("authorize " ++ c))
    | _ => Ok (page 400 "no client")
    end.

(** An extension object bound to an application on which no getter was
    registered. *)
Definition unbound (a : Flask) : OAuth.t :=
  OAuth.mk (Some (Some a)) None None None None None.

(** A response as status, body and header list; assigning a header
    replaces the entries of that name. A token engine that answers every
    request, and three token views. *)
Definition resp : Type := Z * string * list (string * string).
Definition make_response (body : string) (status : Z) : resp :=
  (status, body, [("Content-Type", "text/html")]).
Definition set_header (k v : string) (r : resp) : resp :=
  (fst r, (filter (λ kv, fst kv ≠ k) (snd r) ++ [(k, v)])%list).
Definition token_engine (server : Server) (uri http_method body : string)
    (headers credentials : gmap string string)
    : Result (string * list (string * string) * string * Z) :=
  Ok (uri, [("Content-Type", "application/json"); ("Cache-Control", "no-store")],
      "{}", 200).
Definition no_extras : OAuth.CredentialsView := λ _ _, Ok None.
Definition empty_extras : OAuth.CredentialsView := λ _ _, Ok (Some ∅).
Definition failing_view : OAuth.CredentialsView :=
  λ _ _, Raise (TypeError "view failed").

End Sample.

(** * Properties *)

(** Case analysis on the options and tests a property body branches on. *)
Ltac branch_cases :=
  repeat match goal with
         | |- context [match ?o with Some _ => _ | None => _ end] => destruct o
         | |- context [if ?b then _ else _] => destruct b
         end.

(** ** Scope sets *)

Lemma elem_of_pyset (s : string) (l : list string) : s ∈ pyset l ↔ s ∈ l.
Proof. unfold pyset. apply elem_of_list_to_set. Qed.

Lemma issuperset_spec (have want : list string) :
  issuperset (pyset have) (pyset want) = true ↔ ∀ s, s ∈ want → s ∈ have.
Proof.
  unfold issuperset. rewrite bool_decide_eq_true. split.
  - intros Hsub s Hs. apply elem_of_pyset, Hsub, elem_of_pyset, Hs.
  - intros Hall s Hs. apply elem_of_pyset, Hall, elem_of_pyset, Hs.
Qed.

Lemma pyset_eq_spec (a b : list string) :
  pyset a = pyset b ↔ ∀ s, s ∈ a ↔ s ∈ b.
Proof.
  rewrite set_eq. split; intros H s; specialize (H s).
  - by rewrite !elem_of_pyset in H.
  - by rewrite !elem_of_pyset.
Qed.

Import OAuthRequestValidator.

(** ** validate_bearer_token *)

Lemma validate_bearer_token_cases self now token scopes request :
  match _tokengetter self (Some token) None with
  | None =>
      validate_bearer_token self now token scopes request = (Ok false, request)
  | Some tok =>
      if now >? Token.expires tok then
        validate_bearer_token self now token scopes request = (Ok false, request)
      else if issuperset (pyset (Token.scopes tok)) (pyset scopes) then
        validate_bearer_token self now token scopes request
          = (Ok true, bound_request tok scopes request)
      else
        validate_bearer_token self now token scopes request = (Ok false, request)
  end.
Proof.
  unfold validate_bearer_token.
  destruct (_tokengetter self (Some token) None) as [tok|]; [|done].
  destruct (now >? Token.expires tok); [done|].
  destruct (issuperset _ _); done.
Qed.

(** C1: [validate_bearer_token] returns a boolean without raising; the
    boolean is false exactly when the token lookup is absent, or the
    current time is past the token's expiry, or the required scopes are not
    all among the token's scopes; otherwise it is true and the request
    carries the token's user and the required scopes. *)
Theorem validate_bearer_token_spec self now token scopes request :
  let lookup := _tokengetter self (Some token) None in
  ∃ b request',
    validate_bearer_token self now token scopes request = (Ok b, request') ∧
    (b = false ↔ bearer_refused lookup now scopes) ∧
    (b = true →
       ∃ tok, lookup = Some tok ∧
         Request.user request' = Some (Token.user tok) ∧
         Request.scopes request' = Some scopes ∧
         request' = bound_request tok scopes request).
Proof.
  intros lookup. subst lookup.
  pose proof (validate_bearer_token_cases self now token scopes request) as H.
  unfold bearer_refused.
  destruct (_tokengetter self (Some token) None) as [tok|].
  - destruct (Z.gtb_spec now (Token.expires tok)) as [Hgt|Hle].
    + exists false, request. split; [done|]. split; [|done].
      split; [|done]. intros _. right. exists tok. split; [done|]. left. lia.
    + destruct (issuperset _ _) eqn:Hsup.
      * pose proof (proj1 (issuperset_spec _ _) Hsup) as Hall.
        exists true, (bound_request tok scopes request).
        split; [done|]. split.
        -- split; [done|]. intros [Habs|(tok' & Heq & [Hgt|Hsub])]; [done|..];
             injection Heq as <-; [lia|contradiction].
        -- intros _. by exists tok.
      * exists false, request. split; [done|]. split; [|done].
        split; [|done]. intros _. right. exists tok. split; [done|]. right.
        intros Hall. apply (proj2 (issuperset_spec _ _)) in Hall. congruence.
  - exists false, request. split; [done|]. split; [|done].
    split; [|done]. intros _. by left.
Qed.

(** The spec's example: a token scoped {a,b,c} validates a request that
    requires {a,b} and refuses one that requires {a,d}. *)
Example validate_bearer_token_subset_example :
  validate_bearer_token Sample.validator 900 "at-abc" ["a"; "b"] Request.empty
    = (Ok true, Request.mk None (Some Sample.alice) (Some ["a"; "b"])) ∧
  validate_bearer_token Sample.validator 900 "at-abc" ["a"; "d"] Request.empty
    = (Ok false, Request.empty).
Proof. split; vm_compute; reflexivity. Qed.

(** C9: when [validate_bearer_token] returns false, the request object is
    the one it was given: [user] and [scopes] (and [client]) keep their
    values. *)
Theorem validate_bearer_token_refusal_frame self now token scopes request request' :
  validate_bearer_token self now token scopes request = (Ok false, request') →
  request' = request.
Proof.
  intros Hrun.
  pose proof (validate_bearer_token_cases self now token scopes request) as H.
  destruct (_tokengetter self (Some token) None) as [tok|];
    [destruct (now >? Token.expires tok); [|destruct (issuperset _ _)]|];
    rewrite H in Hrun; congruence.
Qed.

Lemma validate_bearer_token_refusal_frame_witness :
  validate_bearer_token Sample.validator 2000 "at-abc" ["a"] Sample.busy_request
    = (Ok false, Sample.busy_request) ∧
  Sample.busy_request = Sample.busy_request.
Proof.
  split; [reflexivity|].
  apply (validate_bearer_token_refusal_frame Sample.validator 2000 "at-abc" ["a"]).
  reflexivity.
Defined.

(** C8: for a fixed token store, a validation that succeeds at time [t]
    succeeds, with the same effect, at every earlier time [t' < t]; and a
    token found in the store is refused at every time after its expiry. *)
Theorem validate_bearer_token_monotonic self token scopes request :
  (∀ t t' request',
     validate_bearer_token self t token scopes request = (Ok true, request') →
     t' < t →
     validate_bearer_token self t' token scopes request = (Ok true, request')) ∧
  (∀ tok t'',
     _tokengetter self (Some token) None = Some tok →
     Token.expires tok < t'' →
     validate_bearer_token self t'' token scopes request = (Ok false, request)).
Proof.
  split.
  - intros t t' request' Hrun Hlt.
    pose proof (validate_bearer_token_cases self t token scopes request) as H.
    pose proof (validate_bearer_token_cases self t' token scopes request) as H'.
    destruct (_tokengetter self (Some token) None) as [tok|]; [|congruence].
    destruct (Z.gtb_spec t (Token.expires tok)); [congruence|].
    destruct (Z.gtb_spec t' (Token.expires tok)); [lia|].
    destruct (issuperset _ _); congruence.
  - intros tok t'' Hlookup Hlt.
    pose proof (validate_bearer_token_cases self t'' token scopes request) as H.
    rewrite Hlookup in H.
    destruct (Z.gtb_spec t'' (Token.expires tok)); [done|lia].
Qed.

Lemma validate_bearer_token_monotonic_witness :
  validate_bearer_token Sample.validator 100 "at-abc" ["a"; "b"] Request.empty
    = (Ok true, bound_request Sample.tok_abc ["a"; "b"] Request.empty) ∧
  validate_bearer_token Sample.validator 1001 "at-abc" ["a"; "b"] Request.empty
    = (Ok false, Request.empty).
Proof.
  destruct (validate_bearer_token_monotonic Sample.validator "at-abc" ["a"; "b"]
              Request.empty) as [Hearlier Hexpired].
  split.
  - apply (Hearlier 1000 100); [vm_compute; reflexivity | lia].
  - apply (Hexpired Sample.tok_abc 1001); [reflexivity | simpl; lia].
Defined.

(** ** confirm_scopes *)

Lemma confirm_scopes_found self refresh_token scopes request tok :
  _tokengetter self None (Some refresh_token) = Some tok →
  confirm_scopes self refresh_token scopes request
    = (Ok (bool_decide (pyset (Token.scopes tok) = pyset scopes)), request).
Proof. intros Hlookup. unfold confirm_scopes. by rewrite Hlookup. Qed.

Lemma confirm_scopes_store_miss self refresh_token scopes request :
  _tokengetter self None (Some refresh_token) = None →
  confirm_scopes self refresh_token scopes request
    = (Raise (AttributeError "scopes"), request).
Proof. intros Hlookup. unfold confirm_scopes. by rewrite Hlookup. Qed.

(** C3: for a refresh token with a stored token record, [confirm_scopes]
    returns true exactly when the requested scopes and the stored scopes
    are the same set; a request for a strict superset of the stored scopes
    returns false. The request object is not touched. *)
Theorem confirm_scopes_spec self refresh_token scopes request tok :
  _tokengetter self None (Some refresh_token) = Some tok →
  ∃ b,
    confirm_scopes self refresh_token scopes request = (Ok b, request) ∧
    (b = true ↔ ∀ s, s ∈ scopes ↔ s ∈ Token.scopes tok) ∧
    ((∀ s, s ∈ Token.scopes tok → s ∈ scopes) →
     (∃ s, s ∈ scopes ∧ s ∉ Token.scopes tok) →
     b = false).
Proof.
  intros Hlookup.
  exists (bool_decide (pyset (Token.scopes tok) = pyset scopes)).
  split; [by apply confirm_scopes_found|].
  split.
  - split.
    + intros Hb s. apply bool_decide_eq_true_1 in Hb.
      symmetry. by apply pyset_eq_spec.
    + intros Hsame. apply bool_decide_eq_true_2, pyset_eq_spec.
      intros s. symmetry. apply Hsame.
  - intros _ (s & Hin & Hout).
    apply bool_decide_eq_false_2. intros Heq.
    apply Hout. by apply (proj1 (pyset_eq_spec _ _) Heq).
Qed.

Lemma confirm_scopes_spec_witness :
  Sample.tokens None (Some "rt-a") = Some Sample.tok_a ∧
  ∃ b,
    confirm_scopes Sample.validator "rt-a" ["a"; "b"] Request.empty
      = (Ok b, Request.empty) ∧
    (b = true ↔ ∀ s, s ∈ ["a"; "b"] ↔ s ∈ Token.scopes Sample.tok_a) ∧
    ((∀ s, s ∈ Token.scopes Sample.tok_a → s ∈ ["a"; "b"]) →
     (∃ s, s ∈ ["a"; "b"] ∧ s ∉ Token.scopes Sample.tok_a) →
     b = false).
Proof.
  split; [reflexivity|].
  apply (confirm_scopes_spec Sample.validator "rt-a" ["a"; "b"] Request.empty
           Sample.tok_a).
  reflexivity.
Defined.

(** The spec's example: refreshing with {a,b} against a token scoped {a}
    fails, refreshing with the same set in another order succeeds. *)
Example confirm_scopes_escalation_example :
  confirm_scopes Sample.validator "rt-a" ["a"; "b"] Request.empty
    = (Ok false, Request.empty) ∧
  confirm_scopes Sample.validator "rt-a" ["a"; "a"] Request.empty
    = (Ok true, Request.empty).
Proof. split; vm_compute; reflexivity. Qed.

(** ** authenticate_client_id *)

Lemma authenticate_client_id_cases self client_id request :
  match por (Request.client request) (_clientgetter self client_id) with
  | None =>
      authenticate_client_id self client_id request = (Ok false, request)
  | Some c =>
      authenticate_client_id self client_id request
        = (Ok (negb (String.eqb (Client.client_type c) (confidential_marker c))),
           Request.with_client (Some c) request)
  end.
Proof.
  unfold authenticate_client_id, bind, get_client.
  destruct (por _ _); reflexivity.
Qed.

(** C7, as amended: [authenticate_client_id] returns true exactly when the
    resolved client (the client already bound to the request if there is
    one, the result of the client lookup otherwise) exists and its
    [client_type] differs from the confidential marker; a resolved client
    is bound into the request, and without one the request is unchanged.
    On a request with no client bound, the resolved client is the
    lookup's. *)
Theorem authenticate_client_id_spec self client_id request :
  let resolved := por (Request.client request) (_clientgetter self client_id) in
  ∃ b request',
    authenticate_client_id self client_id request = (Ok b, request') ∧
    (b = true ↔ ∃ c, resolved = Some c ∧ non_confidential c) ∧
    (∀ c, resolved = Some c → request' = Request.with_client (Some c) request) ∧
    (resolved = None → request' = request) ∧
    (Request.client request = None → resolved = _clientgetter self client_id).
Proof.
  intros resolved. subst resolved.
  pose proof (authenticate_client_id_cases self client_id request) as H.
  destruct (por _ _) as [c|] eqn:Hres.
  - eexists _, _. split; [exact H|]. unfold non_confidential.
    split; [|split; [|split]].
    + rewrite negb_true_iff, String.eqb_neq. split.
      * intros Hne. by exists c.
      * by intros (c' & [= <-] & Hne).
    + by intros c' [= <-].
    + done.
    + intros Hnone. rewrite <- Hres. unfold por. by rewrite Hnone.
  - exists false, request. split; [exact H|].
    split; [|split; [|split]]; [|done|done|].
    + split; [done|]. by intros (c & ? & _).
    + intros Hnone. rewrite <- Hres. unfold por. by rewrite Hnone.
Qed.

(** C7, as stated, fails on a request that already carries a client: the
    lookup of "nobody" finds nothing, yet the call returns true, for the
    client a previous check bound. *)
Lemma authenticate_client_id_bound_client_counterexample :
  Sample.clients "nobody" = None ∧
  authenticate_client_id Sample.validator "nobody" Sample.busy_request
    = (Ok true, Sample.busy_request) ∧
  ¬ accepts_by_lookup Sample.validator "nobody" Sample.busy_request.
Proof.
  split; [reflexivity|]. split; [reflexivity|].
  unfold accepts_by_lookup. intros [Hclaim _].
  destruct (Hclaim eq_refl) as (c & Hc & _). discriminate Hc.
Qed.

(** A client that brings its own [confidential] attribute is compared with
    that attribute, not with the string 'confidential'. *)
Example authenticate_client_id_own_marker_example :
  let c := Client.mk "C3" "" "confidential" [] "" [] (Some "server") in
  authenticate_client_id (OAuthRequestValidator.mk (λ _, Some c) Sample.tokens Sample.grants)
    "C3" Request.empty
    = (Ok true, Request.with_client (Some c) Request.empty).
Proof. reflexivity. Qed.

(** ** Store misses *)

Lemma validate_redirect_uri_found self client_id redirect_uri request c :
  _clientgetter self client_id = Some c →
  validate_redirect_uri self client_id redirect_uri request
    = (Ok (bool_decide (redirect_uri ∈ Client.redirect_uris c)),
       Request.with_client (Some c) request).
Proof.
  intros Hlookup. unfold validate_redirect_uri. rewrite Hlookup.
  by destruct request.
Qed.

Lemma validate_redirect_uri_store_miss self client_id redirect_uri request :
  _clientgetter self client_id = None →
  validate_redirect_uri self client_id redirect_uri request
    = (Raise (AttributeError "redirect_uris"), Request.with_client None request).
Proof.
  intros Hlookup. unfold validate_redirect_uri. rewrite Hlookup.
  by destruct request.
Qed.

(** The sibling checks return false on a store miss. *)
Lemma validate_client_id_store_miss self client_id request :
  Request.client request = None →
  _clientgetter self client_id = None →
  validate_client_id self client_id request = (Ok false, request).
Proof.
  intros Hreq Hlookup. unfold validate_client_id, bind, get_client.
  by rewrite Hreq, Hlookup.
Qed.

(** C2, on the code: with an unknown client id [validate_redirect_uri]
    raises [AttributeError] instead of returning false, and so does
    [confirm_scopes] with an unknown refresh token. *)
Theorem store_miss_raises :
  Sample.clients "nobody" = None ∧
  validate_redirect_uri Sample.validator "nobody" "https://app/cb" Request.empty
    = (Raise (AttributeError "redirect_uris"), Request.empty) ∧
  Sample.tokens None (Some "rt-unknown") = None ∧
  confirm_scopes Sample.validator "rt-unknown" ["a"] Request.empty
    = (Raise (AttributeError "scopes"), Request.empty).
Proof. repeat split; reflexivity. Qed.

(** ** validate_code *)

Lemma validate_code_none self client_id code client request :
  validate_code self client_id code client request = (Ok None, request).
Proof. reflexivity. Qed.

(** C4, on the code: for a stored grant that has not expired,
    [validate_code] returns [None], which is not true. *)
Theorem validate_code_stub :
  Sample.grants "C1" "XYZ" = Some Sample.grant_xyz ∧
  100 < Grant.expires_at Sample.grant_xyz ∧
  validate_code Sample.validator "C1" "XYZ" (Some Sample.web_app) Request.empty
    = (Ok None, Request.empty) ∧
  (None : option bool) ≠ Some true.
Proof. repeat split; try reflexivity. discriminate. Qed.

(** ** error_uri *)

Lemma get_app_state ctx_top self : snd (OAuth.get_app ctx_top self) = self.
Proof.
  unfold OAuth.get_app, bind.
  destruct (OAuth.app self) as [[a|]|]; [done| |done].
  by destruct ctx_top.
Qed.

Lemma error_uri_body_value ctx_top url_for self app :
  fst (OAuth.get_app ctx_top self) = Ok app →
  fst (OAuth.error_uri_body ctx_top url_for self)
    = if_truthy (config app !! "OAUTH_PROVIDER_ERROR_URI") Ok
        (if_truthy (config app !! "OAUTH_PROVIDER_ERROR_ENDPOINT") url_for
           (Ok "/errors")).
Proof.
  intros Happ. unfold OAuth.error_uri_body, bind.
  destruct (OAuth.get_app ctx_top self) as [[a|e] self'] eqn:Hget;
    simpl in Happ; [injection Happ as ->|discriminate].
  unfold if_truthy.
  destruct (config app !! "OAUTH_PROVIDER_ERROR_URI") as [u|];
    [destruct (String.eqb u ""); [|done]|];
    (destruct (config app !! "OAUTH_PROVIDER_ERROR_ENDPOINT") as [ep|];
     [destruct (String.eqb ep ""); done|done]).
Qed.


Lemma error_uri_body_state ctx_top url_for self :
  snd (OAuth.error_uri_body ctx_top url_for self) = self.
Proof.
  unfold OAuth.error_uri_body, OAuth.get_app, bind, if_truthy, lift, ret, raise.
  branch_cases; reflexivity.
Qed.

Lemma error_uri_body_ignores_cache ctx_top url_for self v :
  fst (OAuth.error_uri_body ctx_top url_for (OAuth.with_error_uri v self))
    = fst (OAuth.error_uri_body ctx_top url_for self).
Proof.
  unfold OAuth.error_uri_body, OAuth.get_app, bind, if_truthy, lift, ret, raise.
  simpl. branch_cases; reflexivity.
Qed.

(** Reading [error_uri] keeps the memoised value coherent. *)
Lemma error_uri_keeps_coherent ctx_top url_for self :
  error_uri_cache_coherent ctx_top url_for self →
  error_uri_cache_coherent ctx_top url_for
    (snd (OAuth.error_uri ctx_top url_for self)).
Proof.
  intros Hcoh. unfold OAuth.error_uri, cached_property.
  destruct (OAuth.error_uri_cache self) as [v|] eqn:Hcache; [done|].
  pose proof (error_uri_body_state ctx_top url_for self) as Hstate.
  destruct (OAuth.error_uri_body ctx_top url_for self) as [[v|e] self'] eqn:Hbody;
    simpl in Hstate; subst self'; simpl.
  - intros v' [= <-].
    by rewrite error_uri_body_ignores_cache, Hbody.
  - intros v' Hv'. congruence.
Qed.




(** ** authorize_handler *)

Lemma server_registered self c t g :
  OAuth.server_cache self = None →
  OAuth._clientgetter self = Some c →
  OAuth._tokengetter self = Some t →
  OAuth._grantgetter self = Some g →
  let srv := mkServer (OAuthRequestValidator.mk c t g) in
  OAuth.server self = (Ok srv, OAuth.with_server srv self).
Proof.
  intros Hcache Hc Ht Hg. unfold OAuth.server, cached_property, OAuth.server_body.
  by rewrite Hcache, Hc, Ht, Hg.
Qed.





(** ** require_oauth *)

(** C6, on the code: [require_oauth] returns [None] for every scope list,
    so guarding a view with it raises [TypeError]; no bearer token is
    validated and no error response is built. *)
Theorem require_oauth_stub :
  OAuth.require_oauth (Sample.oauth Sample.app_default) (Some ["email"]) = None ∧
  OAuth.decorate
    (OAuth.require_oauth (Sample.oauth Sample.app_default) (Some ["email"]))
    Sample.user_view
  = Raise (TypeError "'NoneType' object is not callable").
Proof. split; reflexivity. Qed.

(** * Further properties of the validator *)

Lemma validate_client_id_cases self client_id request :
  validate_client_id self client_id request
  = match por (Request.client request) (_clientgetter self client_id) with
    | Some c => (Ok true, Request.with_client (Some c) request)
    | None => (Ok false, request)
    end.
Proof. unfold validate_client_id, bind, get_client. by destruct (por _ _). Qed.

Lemma get_default_redirect_uri_cases self client_id request :
  get_default_redirect_uri self client_id request
  = match por (Request.client request) (_clientgetter self client_id) with
    | Some c => (Ok (Client.default_redirect_uri c), request)
    | None => (Raise (AttributeError "default_redirect_uri"), request)
    end.
Proof. unfold get_default_redirect_uri, bind, get_client. by destruct (por _ _). Qed.

Lemma get_default_scopes_cases self client_id request :
  get_default_scopes self client_id request
  = match por (Request.client request) (_clientgetter self client_id) with
    | Some c => (Ok (Client.default_scopes c), request)
    | None => (Raise (AttributeError "default_scopes"), request)
    end.
Proof. unfold get_default_scopes, bind, get_client. by destruct (por _ _). Qed.

Lemma por_bound {A} (a : A) (b : option A) : por (Some a) b = Some a.
Proof. reflexivity. Qed.

(** X1: [validate_client_id] returns true exactly when the request already
    carries a client or the lookup finds one; the request then carries the
    resolved client (the bound one first), and on false it is unchanged. *)
Theorem validate_client_id_spec self client_id request :
  let resolved := por (Request.client request) (_clientgetter self client_id) in
  ∃ b,
    validate_client_id self client_id request
      = (Ok b, Request.with_client resolved request) ∧
    (b = true ↔
       is_Some (Request.client request) ∨ is_Some (_clientgetter self client_id)) ∧
    (b = false → Request.with_client resolved request = request).
Proof.
  intros resolved. subst resolved. rewrite validate_client_id_cases.
  destruct request as [[bound|] u s]; simpl.
  - exists true. split; [done|]. split; [|done]. split; [|done].
    intros _. left. by eexists.
  - destruct (_clientgetter self client_id) as [c|]; simpl.
    + exists true. split; [done|]. split; [|done]. split; [|done].
      intros _. right. by eexists.
    + exists false. split; [done|]. split; [|done]. split; [done|].
      by intros [[? [=]]|[? [=]]].
Qed.

(** X2: once [validate_client_id] has returned true, the bound client
    answers every later client question on that request: for any client id
    and any client store, [validate_client_id] is true again,
    [get_default_redirect_uri] and [get_default_scopes] return the bound
    client's defaults and [authenticate_client_id] judges the bound client,
    all without changing the request. *)
Theorem bound_client_is_reused self client_id request request' other client_id' :
  validate_client_id self client_id request = (Ok true, request') →
  ∃ c,
    Request.client request' = Some c ∧
    validate_client_id other client_id' request' = (Ok true, request') ∧
    get_default_redirect_uri other client_id' request'
      = (Ok (Client.default_redirect_uri c), request') ∧
    get_default_scopes other client_id' request'
      = (Ok (Client.default_scopes c), request') ∧
    authenticate_client_id other client_id' request'
      = (Ok (negb (String.eqb (Client.client_type c) (confidential_marker c))),
         request').
Proof.
  rewrite validate_client_id_cases.
  destruct (por _ _) as [c|]; [|discriminate].
  intros [= <-]. exists c. split; [done|].
  pose proof (authenticate_client_id_cases other client_id'
                (Request.with_client (Some c) request)) as Hauth.
  rewrite validate_client_id_cases, get_default_redirect_uri_cases,
    get_default_scopes_cases.
  simpl in *. by rewrite Hauth.
Qed.

Lemma bound_client_is_reused_witness :
  let request' := Request.with_client (Some Sample.web_app) Request.empty in
  let empty_store :=
    OAuthRequestValidator.mk (λ _, None) Sample.tokens Sample.grants in
  validate_client_id Sample.validator "C1" Request.empty = (Ok true, request') ∧
  get_default_redirect_uri empty_store "C2" request'
    = (Ok "https://app/cb", request').
Proof.
  intros request' empty_store. split; [reflexivity|].
  destruct (bound_client_is_reused Sample.validator "C1" Request.empty request'
              empty_store "C2") as (c & Hc & _ & Hdefault & _); [reflexivity|].
  injection Hc as <-. exact Hdefault.
Defined.

(** X3: [validate_redirect_uri] always replaces the client on the request
    by the result of the lookup, whatever was bound before; for a known
    client it returns true exactly when the URI is one of the client's
    [redirect_uris]. *)
Theorem validate_redirect_uri_spec self client_id redirect_uri request :
  let lookup := _clientgetter self client_id in
  snd (validate_redirect_uri self client_id redirect_uri request)
    = Request.with_client lookup request ∧
  ∀ c, lookup = Some c →
    ∃ b,
      fst (validate_redirect_uri self client_id redirect_uri request) = Ok b ∧
      (b = true ↔ redirect_uri ∈ Client.redirect_uris c).
Proof.
  intros lookup. subst lookup. split.
  - destruct (_clientgetter self client_id) as [c|] eqn:Hlookup.
    + by rewrite (validate_redirect_uri_found _ _ _ _ c Hlookup).
    + by rewrite (validate_redirect_uri_store_miss _ _ _ _ Hlookup).
  - intros c Hlookup. rewrite (validate_redirect_uri_found _ _ _ _ c Hlookup).
    eexists. split; [done|]. apply bool_decide_eq_true.
Qed.

(** X4: [get_default_redirect_uri] and [get_default_scopes] read the
    resolved client (the bound one first, the lookup's otherwise) and never
    change the request; on a request and client id for which
    [validate_client_id] returns false they raise [AttributeError]. *)
Theorem get_default_resolution self client_id request :
  let resolved := por (Request.client request) (_clientgetter self client_id) in
  (∀ c, resolved = Some c →
     get_default_redirect_uri self client_id request
       = (Ok (Client.default_redirect_uri c), request) ∧
     get_default_scopes self client_id request
       = (Ok (Client.default_scopes c), request)) ∧
  (fst (validate_client_id self client_id request) = Ok false →
     get_default_redirect_uri self client_id request
       = (Raise (AttributeError "default_redirect_uri"), request) ∧
     get_default_scopes self client_id request
       = (Raise (AttributeError "default_scopes"), request)).
Proof.
  intros resolved. subst resolved.
  rewrite validate_client_id_cases, get_default_redirect_uri_cases,
    get_default_scopes_cases.
  destruct (por _ _) as [c|]; split.
  - by intros c' [= <-].
  - discriminate.
  - discriminate.
  - done.
Qed.

(** X5: requiring fewer scopes never turns an accepted bearer token into a
    refused one: if the validation succeeds for [scopes], it succeeds at
    the same time for every list whose elements are all in [scopes], and
    binds that list. *)
Theorem validate_bearer_token_fewer_scopes self now token scopes scopes'
    request request' :
  validate_bearer_token self now token scopes request = (Ok true, request') →
  (∀ s, s ∈ scopes' → s ∈ scopes) →
  ∃ tok,
    _tokengetter self (Some token) None = Some tok ∧
    validate_bearer_token self now token scopes' request
      = (Ok true, bound_request tok scopes' request).
Proof.
  intros Hrun Hsub.
  pose proof (validate_bearer_token_cases self now token scopes request) as H.
  pose proof (validate_bearer_token_cases self now token scopes' request) as H'.
  destruct (_tokengetter self (Some token) None) as [tok|]; [|congruence].
  destruct (now >? Token.expires tok); [congruence|].
  destruct (issuperset _ (pyset scopes)) eqn:Hsup; [|congruence].
  exists tok. split; [done|].
  assert (issuperset (pyset (Token.scopes tok)) (pyset scopes') = true) as Hsup'.
  { apply issuperset_spec. intros s Hs.
    by apply (proj1 (issuperset_spec _ _) Hsup), Hsub. }
  by rewrite Hsup' in H'.
Qed.

Lemma validate_bearer_token_fewer_scopes_witness :
  validate_bearer_token Sample.validator 900 "at-abc" ["c"; "a"] Request.empty
    = (Ok true, bound_request Sample.tok_abc ["c"; "a"] Request.empty) ∧
  validate_bearer_token Sample.validator 900 "at-abc" ["a"; "a"] Request.empty
    = (Ok true, bound_request Sample.tok_abc ["a"; "a"] Request.empty).
Proof.
  split; [vm_compute; reflexivity|].
  destruct (validate_bearer_token_fewer_scopes Sample.validator 900 "at-abc"
              ["c"; "a"] ["a"; "a"] Request.empty
              (bound_request Sample.tok_abc ["c"; "a"] Request.empty))
    as (tok & Htok & Hrun).
  - vm_compute; reflexivity.
  - intros s Hs. apply list_elem_of_In in Hs. apply list_elem_of_In.
    simpl in *. tauto.
  - injection Htok as <-. exact Hrun.
Defined.

(** X6: a stored token whose scopes cover the required ones (every token,
    when no scope is required) is accepted exactly up to its expiry, the
    instant of expiry included. *)
Theorem validate_bearer_token_window self now token scopes request tok :
  _tokengetter self (Some token) None = Some tok →
  (∀ s, s ∈ scopes → s ∈ Token.scopes tok) →
  (fst (validate_bearer_token self now token scopes request) = Ok true ↔
     now ≤ Token.expires tok) ∧
  validate_bearer_token self (Token.expires tok) token scopes request
    = (Ok true, bound_request tok scopes request).
Proof.
  intros Hlookup Hsub.
  apply (proj2 (issuperset_spec _ _)) in Hsub.
  pose proof (validate_bearer_token_cases self now token scopes request) as H.
  pose proof (validate_bearer_token_cases self (Token.expires tok) token scopes
                request) as Hat.
  rewrite Hlookup, Hsub in H, Hat. split.
  - destruct (Z.gtb_spec now (Token.expires tok)); rewrite H; simpl.
    + split; [discriminate|lia].
    + split; [lia|done].
  - by destruct (Z.gtb_spec (Token.expires tok) (Token.expires tok)); [lia|].
Qed.

Lemma validate_bearer_token_window_witness :
  Sample.tokens (Some "at-abc") None = Some Sample.tok_abc ∧
  validate_bearer_token Sample.validator 1000 "at-abc" [] Sample.busy_request
    = (Ok true, bound_request Sample.tok_abc [] Sample.busy_request).
Proof.
  split; [reflexivity|].
  destruct (validate_bearer_token_window Sample.validator 0 "at-abc" []
              Sample.busy_request Sample.tok_abc) as [_ Hat].
  - reflexivity.
  - intros s Hs. by apply elem_of_nil in Hs.
  - exact Hat.
Defined.

(** * Further properties of the extension object *)

Lemma cached_property_hit {S A} (slot : S → option A) store body s v :
  slot s = Some v → cached_property slot store body s = (Ok v, s).
Proof. intros Hslot. unfold cached_property. by rewrite Hslot. Qed.

Lemma server_body_state self : snd (OAuth.server_body self) = self.
Proof. unfold OAuth.server_body. branch_cases; reflexivity. Qed.

Lemma server_memo self srv self' :
  OAuth.server self = (Ok srv, self') → OAuth.server_cache self' = Some srv.
Proof.
  unfold OAuth.server, cached_property.
  destruct (OAuth.server_cache self) as [v|] eqn:Hcache.
  - by intros [= <- <-].
  - destruct (OAuth.server_body self) as [[v|e] s]; [|discriminate].
    by intros [= <- <-].
Qed.

Lemma error_uri_memo ctx_top url_for self u self' :
  OAuth.error_uri ctx_top url_for self = (Ok u, self') →
  OAuth.error_uri_cache self' = Some u.
Proof.
  unfold OAuth.error_uri, cached_property.
  destruct (OAuth.error_uri_cache self) as [v|] eqn:Hcache.
  - by intros [= <- <-].
  - destruct (OAuth.error_uri_body ctx_top url_for self) as [[v|e] s]; [|discriminate].
    by intros [= <- <-].
Qed.

(** X7: [_extract_params] passes on the URL, the method and the encoded
    form; in the headers it drops 'wsgi.input' and 'wsgi.errors', copies
    'HTTP_AUTHORIZATION' (when present) over 'Authorization', and keeps
    every other entry, 'HTTP_AUTHORIZATION' included. *)
Theorem extract_params_spec urlencoded request :
  ∃ headers,
    OAuth._extract_params urlencoded request
      = (FlaskRequest.url request, FlaskRequest.method request,
         urlencoded (FlaskRequest.form request), headers) ∧
    headers !! "wsgi.input" = None ∧
    headers !! "wsgi.errors" = None ∧
    headers !! "Authorization"
      = match FlaskRequest.headers request !! "HTTP_AUTHORIZATION" with
        | Some v => Some v
        | None => FlaskRequest.headers request !! "Authorization"
        end ∧
    ∀ k, k ≠ "wsgi.input" → k ≠ "wsgi.errors" → k ≠ "Authorization" →
         headers !! k = FlaskRequest.headers request !! k.
Proof.
  unfold OAuth._extract_params. eexists. split; [reflexivity|].
  rewrite !lookup_delete_ne by done.
  destruct (FlaskRequest.headers request !! "HTTP_AUTHORIZATION") as [v|].
  - rewrite !lookup_insert_ne by done. rewrite lookup_insert_eq.
    rewrite lookup_delete_ne by done. rewrite !lookup_delete_eq.
    repeat split. intros k H1 H2 H3.
    rewrite lookup_insert_ne by done. by rewrite !lookup_delete_ne.
  - rewrite lookup_delete_ne by done. rewrite !lookup_delete_eq.
    rewrite !lookup_delete_ne by done.
    repeat split. intros k H1 H2 H3. by rewrite !lookup_delete_ne.
Qed.

(** X8: [get_app] prefers the application the instance was bound to over
    the one of the application context: after [OAuth(app)] or a later
    [init_app(app)] it returns that application whatever the context holds;
    on an instance made with [OAuth()] and never bound, reading [self.app]
    raises [AttributeError] even inside an application context; the
    context's application is used only when [app] was assigned [None], and
    without a context that case raises [RuntimeError]. *)
Theorem get_app_resolution :
  (∀ ctx_top app,
     OAuth.get_app ctx_top (snd (OAuth.new (Some app)))
       = (Ok app, snd (OAuth.new (Some app)))) ∧
  (∀ ctx_top app,
     fst (OAuth.get_app ctx_top (snd (OAuth.init_app (Some app) (snd (OAuth.new None)))))
       = Ok app) ∧
  (∀ ctx_top,
     OAuth.get_app ctx_top (snd (OAuth.new None))
       = (Raise (AttributeError "app"), snd (OAuth.new None))) ∧
  (∀ self ctx_app,
     OAuth.app self = Some None →
     OAuth.get_app (Some ctx_app) self = (Ok ctx_app, self)) ∧
  (∀ self,
     OAuth.app self = Some None →
     ∃ msg, OAuth.get_app None self = (Raise (RuntimeError msg), self)).
Proof.
  split; [done|]. split; [done|]. split; [done|]. split.
  - intros self ctx_app Happ. unfold OAuth.get_app, bind. by rewrite Happ.
  - intros self Happ. unfold OAuth.get_app, bind. rewrite Happ. by eexists.
Qed.

(** X9: on an instance with no memoised server, [server] succeeds exactly
    when the three getters are registered, with a validator made of those
    three; with a getter missing it raises [RuntimeError] and memoises
    nothing, so that registering the getters afterwards makes it
    succeed. *)
Theorem server_needs_all_getters self :
  OAuth.server_cache self = None →
  (∀ c t g,
     OAuth._clientgetter self = Some c →
     OAuth._tokengetter self = Some t →
     OAuth._grantgetter self = Some g →
     fst (OAuth.server self) = Ok (mkServer (OAuthRequestValidator.mk c t g))) ∧
  (OAuth._clientgetter self = None ∨ OAuth._tokengetter self = None ∨
   OAuth._grantgetter self = None →
   OAuth.server self
     = (Raise (RuntimeError "application not bound to required getters"), self) ∧
   ∀ c t g,
     fst (OAuth.server
            (OAuth.grantgetter g (OAuth.tokengetter t (OAuth.clientgetter c self))))
       = Ok (mkServer (OAuthRequestValidator.mk c t g))).
Proof.
  intros Hcache. split.
  - intros c t g Hc Ht Hg. by rewrite (server_registered self c t g).
  - intros Hmissing. split.
    + unfold OAuth.server, cached_property, OAuth.server_body. rewrite Hcache.
      destruct Hmissing as [Hm | [Hm | Hm]]; rewrite Hm; branch_cases; reflexivity.
    + intros c t g.
      by rewrite (server_registered
                    (OAuth.grantgetter g (OAuth.tokengetter t (OAuth.clientgetter c self)))
                    c t g).
Qed.

Lemma server_needs_all_getters_witness :
  let self := OAuth.clientgetter Sample.clients (Sample.unbound Sample.app_default) in
  OAuth.server_cache self = None ∧
  OAuth._tokengetter self = None ∧
  OAuth.server self
    = (Raise (RuntimeError "application not bound to required getters"), self).
Proof.
  intros self. split; [reflexivity|]. split; [reflexivity|].
  destruct (server_needs_all_getters self) as [_ Hmissing]; [reflexivity|].
  destruct Hmissing as [Hraise _]; [right; left; reflexivity|].
  exact Hraise.
Defined.

(** X10: once [server] has returned a server, it returns that same server
    from then on without changing the instance, also after other getters
    are registered: the validator keeps the getters of the first read. *)
Theorem server_is_memoised self srv self' :
  OAuth.server self = (Ok srv, self') →
  OAuth.server self' = (Ok srv, self') ∧
  ∀ c t g,
    fst (OAuth.server
           (OAuth.grantgetter g (OAuth.tokengetter t (OAuth.clientgetter c self'))))
      = Ok srv.
Proof.
  intros Hread. apply server_memo in Hread. split.
  - by apply cached_property_hit.
  - intros c t g. unfold OAuth.server. by rewrite (cached_property_hit _ _ _ _ srv).
Qed.

Lemma server_is_memoised_witness :
  let self := Sample.oauth Sample.app_default in
  let srv := mkServer Sample.validator in
  OAuth.server self = (Ok srv, OAuth.with_server srv self) ∧
  fst (OAuth.server
         (OAuth.grantgetter (λ _ _, None)
            (OAuth.tokengetter (λ _ _, None)
               (OAuth.clientgetter (λ _, None) (OAuth.with_server srv self)))))
    = Ok srv.
Proof.
  intros self srv. split; [reflexivity|].
  destruct (server_is_memoised self srv (OAuth.with_server srv self))
    as [_ Hlater]; [reflexivity|].
  apply Hlater.
Defined.

Lemma error_uri_body_full ctx_top url_for self :
  OAuth.error_uri_body ctx_top url_for self
  = (fst (OAuth.error_uri_body ctx_top url_for self), self).
Proof.
  rewrite <- (error_uri_body_state ctx_top url_for self) at 3.
  by destruct (OAuth.error_uri_body ctx_top url_for self).
Qed.

(** X11: on an instance with nothing memoised, when
    OAUTH_PROVIDER_ERROR_URI is missing or empty and
    OAUTH_PROVIDER_ERROR_ENDPOINT is a non-empty endpoint name, [error_uri]
    is [url_for(endpoint)]: its value is returned and memoised, and when
    [url_for] raises, the exception is passed on and nothing is
    memoised. *)
Theorem error_uri_from_endpoint ctx_top url_for self app endpoint :
  OAuth.error_uri_cache self = None →
  fst (OAuth.get_app ctx_top self) = Ok app →
  config app !! "OAUTH_PROVIDER_ERROR_URI" = None ∨
    config app !! "OAUTH_PROVIDER_ERROR_URI" = Some "" →
  config app !! "OAUTH_PROVIDER_ERROR_ENDPOINT" = Some endpoint →
  endpoint ≠ "" →
  (∀ u, url_for endpoint = Ok u →
        OAuth.error_uri ctx_top url_for self = (Ok u, OAuth.with_error_uri u self)) ∧
  (∀ x, url_for endpoint = Raise x →
        OAuth.error_uri ctx_top url_for self = (Raise x, self)).
Proof.
  intros Hcache Happ Huri Hendpoint Hne.
  assert (Hbody : OAuth.error_uri_body ctx_top url_for self = (url_for endpoint, self)).
  { rewrite error_uri_body_full, (error_uri_body_value _ _ _ _ Happ), Hendpoint.
    apply String.eqb_neq in Hne.
    destruct Huri as [-> | ->]; simpl; by rewrite Hne. }
  unfold OAuth.error_uri, cached_property. rewrite Hcache, Hbody.
  split; by intros ? ->.
Qed.

Lemma error_uri_from_endpoint_witness :
  let app :=
    mkFlask (<["OAUTH_PROVIDER_ERROR_URI" := ""]>
              (<["OAUTH_PROVIDER_ERROR_ENDPOINT" := "oauth_error"]> ∅)) in
  let self := Sample.oauth app in
  config app !! "OAUTH_PROVIDER_ERROR_URI" = Some "" ∧
  config app !! "OAUTH_PROVIDER_ERROR_ENDPOINT" = Some "oauth_error" ∧
  OAuth.error_uri None Sample.url_for self
    = (Ok "/oauth_error", OAuth.with_error_uri "/oauth_error" self).
Proof.
  intros app self. split; [reflexivity|]. split; [reflexivity|].
  destruct (error_uri_from_endpoint None Sample.url_for self app "oauth_error")
    as [Hvalue _]; [reflexivity | reflexivity | by right | reflexivity | discriminate |].
  by apply Hvalue.
Defined.

(** X12: once [error_uri] has returned a value, it keeps returning that
    value without changing the instance, whatever the context, the routes
    and the application the instance is bound to afterwards with
    [init_app]. *)
Theorem error_uri_is_memoised ctx_top url_for self u self' :
  OAuth.error_uri ctx_top url_for self = (Ok u, self') →
  ∀ ctx_top' url_for',
    OAuth.error_uri ctx_top' url_for' self' = (Ok u, self') ∧
    ∀ app, fst (OAuth.error_uri ctx_top' url_for'
                  (snd (OAuth.init_app (Some app) self'))) = Ok u.
Proof.
  intros Hread ctx_top' url_for'. apply error_uri_memo in Hread. split.
  - by apply cached_property_hit.
  - intros app. unfold OAuth.error_uri.
    by rewrite (cached_property_hit _ _ _ _ u).
Qed.

Lemma error_uri_is_memoised_witness :
  let self := Sample.oauth Sample.app_default in
  OAuth.error_uri None Sample.url_for self
    = (Ok "/errors", OAuth.with_error_uri "/errors" self) ∧
  fst (OAuth.error_uri None Sample.url_for
         (snd (OAuth.init_app (Some Sample.app_configured)
                 (OAuth.with_error_uri "/errors" self))))
    = Ok "/errors".
Proof.
  intros self. split; [reflexivity|].
  destruct (error_uri_is_memoised None Sample.url_for self "/errors"
              (OAuth.with_error_uri "/errors" self) eq_refl None Sample.url_for)
    as [_ Hlater].
  apply Hlater.
Defined.

(** * Further properties of the handlers *)




(** X14: [authorize_handler] catches nothing but [FatalClientError]: any
    other exception of the validation (the non-fatal OAuth2 errors among
    them) is passed on as it is, the view is not called and no redirect is
    produced. *)
Theorem authorize_handler_passes_other_errors ctx_top url_for urlencoded in_uri
    engine request args kwargs self srv self1 x :
  OAuth.server self = (Ok srv, self1) →
  (let '(uri, http_method, body, headers) := OAuth._extract_params urlencoded request in
   engine srv uri http_method body headers) = Raise x →
  (∀ e, x ≠ FatalClientError e) →
  ∀ f,
    OAuth.authorize_handler ctx_top url_for urlencoded in_uri engine f
      request args kwargs self
    = (Raise x, self1).
Proof.
  intros Hserver Hvalid Hx f.
  unfold OAuth.authorize_handler, bind. simpl in Hvalid |- *.
  rewrite Hserver, Hvalid.
  destruct x; try reflexivity. by destruct (Hx e).
Qed.

Lemma authorize_handler_passes_other_errors_witness :
  let self := Sample.oauth Sample.app_default in
  OAuth.authorize_handler None Sample.url_for Sample.urlencoded Sample.in_uri
    Sample.scope_refusing_engine Sample.user_view Sample.good_request [] ∅ self
  = (Raise (OtherOAuth2Error Sample.invalid_scope),
     OAuth.with_server (mkServer Sample.validator) self).
Proof.
  intros self.
  apply (authorize_handler_passes_other_errors None Sample.url_for
           Sample.urlencoded Sample.in_uri Sample.scope_refusing_engine
           Sample.good_request [] ∅ self (mkServer Sample.validator));
    [reflexivity | reflexivity | discriminate].
Defined.

(** X15: with a getter missing (and no memoised server),
    [authorize_handler] raises [RuntimeError] before the request is
    validated or the view called: the result is the same for every engine
    and view. *)
Theorem authorize_handler_without_getters ctx_top url_for urlencoded in_uri
    engine f request args kwargs self :
  OAuth.server_cache self = None →
  OAuth._clientgetter self = None ∨ OAuth._tokengetter self = None ∨
    OAuth._grantgetter self = None →
  OAuth.authorize_handler ctx_top url_for urlencoded in_uri engine f
    request args kwargs self
  = (Raise (RuntimeError "application not bound to required getters"), self).
Proof.
  intros Hcache Hmissing.
  unfold OAuth.authorize_handler, bind, OAuth.server, cached_property,
    OAuth.server_body.
  simpl. rewrite Hcache.
  destruct Hmissing as [Hm | [Hm | Hm]]; rewrite Hm; branch_cases; reflexivity.
Qed.

Lemma authorize_handler_without_getters_witness :
  let self := Sample.unbound Sample.app_default in
  OAuth.server_cache self = None ∧
  OAuth._clientgetter self = None ∧
  OAuth.authorize_handler None Sample.url_for Sample.urlencoded Sample.in_uri
    Sample.accepting_engine Sample.consent_view Sample.good_request [] ∅ self
  = (Raise (RuntimeError "application not bound to required getters"), self).
Proof.
  intros self. split; [reflexivity|]. split; [reflexivity|].
  apply (authorize_handler_without_getters None Sample.url_for Sample.urlencoded
           Sample.in_uri Sample.accepting_engine Sample.consent_view
           Sample.good_request [] ∅ self); [reflexivity | by left].
Defined.

(** X16: [access_token_handler] calls the view before it reads [server]:
    an exception of the view is passed on whatever the instance is, also
    when no getter is registered; and a view that returns [None] gives the
    same result as one that returns the empty dict. *)
Theorem access_token_handler_view_first (Resp : Type) urlencoded
    (make_response : string → Z → Resp) set_header create_token_response
    request args kwargs self :
  let handle := OAuth.access_token_handler urlencoded Resp make_response
                  set_header create_token_response in
  (∀ f x, f args kwargs = Raise x →
          handle f request args kwargs self = (Raise x, self)) ∧
  (∀ f f', f args kwargs = Ok None → f' args kwargs = Ok (Some ∅) →
           handle f request args kwargs self = handle f' request args kwargs self).
Proof.
  intros handle. subst handle. split.
  - intros f x Hf. unfold OAuth.access_token_handler, bind, lift. simpl.
    by rewrite Hf.
  - intros f f' Hf Hf'. unfold OAuth.access_token_handler, bind, lift. simpl.
    by rewrite Hf, Hf'.
Qed.

Lemma access_token_handler_view_first_witness :
  let self := Sample.unbound Sample.app_default in
  OAuth.access_token_handler Sample.urlencoded Sample.resp Sample.make_response
    Sample.set_header Sample.token_engine Sample.failing_view
    Sample.good_request [] ∅ self
  = (Raise (TypeError "view failed"), self) ∧
  OAuth.access_token_handler Sample.urlencoded Sample.resp Sample.make_response
    Sample.set_header Sample.token_engine Sample.no_extras
    Sample.good_request [] ∅ (Sample.oauth Sample.app_default)
  = OAuth.access_token_handler Sample.urlencoded Sample.resp Sample.make_response
      Sample.set_header Sample.token_engine Sample.empty_extras
      Sample.good_request [] ∅ (Sample.oauth Sample.app_default).
Proof.
  intros self. split.
  - destruct (access_token_handler_view_first Sample.resp Sample.urlencoded
                Sample.make_response Sample.set_header Sample.token_engine
                Sample.good_request [] ∅ self) as [Hraise _].
    by apply Hraise.
  - destruct (access_token_handler_view_first Sample.resp Sample.urlencoded
                Sample.make_response Sample.set_header Sample.token_engine
                Sample.good_request [] ∅ (Sample.oauth Sample.app_default))
      as [_ Hnone].
    by apply Hnone.
Defined.
